(** * BernGrid.py: grid-based Bayesian updating for a Bernoulli likelihood

    A shallow embedding of [src/funcs/BernGrid.py].  The file is a partial
    port of an R script: the statements of [bern_grid] that are Python
    (lines 34-59) are read as Python, statement by statement; the plotting
    code from line 64 on is still R, which Python does not parse, so that the
    file as a whole does not compile.

    numpy data are modelled as they are at run time: one-dimensional arrays
    of dtype int64 (63+1 bit two's complement, wrap-around written out over
    [Z]) or float64 (IEEE 754 binary64, the kernel's primitive floats).
    Exceptions carry the source line that raises them. *)

From Stdlib Require Import ZArith List Ascii String QArith Floats Permutation Sorted.
From Stdlib Require Import Lia Lqa.
From stdpp Require Import gmap strings.
Import ListNotations.

Set Warnings "-inexact-float".

Local Open Scope string_scope.
Local Open Scope Z_scope.

(** ** int64 *)

Module Int64.

Definition min_signed : Z := - 2 ^ 63.
Definition max_signed : Z := 2 ^ 63 - 1.

Definition in_range (z : Z) : Prop := min_signed <= z <= max_signed.

(** Two's complement wrap-around of an unbounded result. *)
Definition wrap (z : Z) : Z := (z + 2 ^ 63) mod 2 ^ 64 - 2 ^ 63.

Definition add (a b : Z) : Z := wrap (a + b).
Definition sub (a b : Z) : Z := wrap (a - b).
Definition mul (a b : Z) : Z := wrap (a * b).
Definition xor (a b : Z) : Z := wrap (Z.lxor a b).

(** Conversion to float64, rounding to nearest. *)
Definition to_float (z : Z) : float :=
  if z =? min_signed then (-9223372036854775808)%float
  else if z <? 0 then PrimFloat.opp (PrimFloat.of_uint63 (Uint63.of_Z (- z)))
  else PrimFloat.of_uint63 (Uint63.of_Z z).

End Int64.

(** ** numpy arrays and scalars *)

Inductive ndarray : Type :=
| Int64Arr (l : list Z)
| Float64Arr (l : list float).

Inductive npscalar : Type :=
| NpInt64 (z : Z)
| NpFloat64 (f : float).

Definition len (a : ndarray) : Z :=
  match a with
  | Int64Arr l => Z.of_nat (length l)
  | Float64Arr l => Z.of_nat (length l)
  end.

Definition is_float (a : ndarray) : bool :=
  match a with Float64Arr _ => true | Int64Arr _ => false end.

(** ** Python values bound to global names *)

Inductive pyval : Type :=
| PyInt (z : Z)
| PyFloat (f : float)
| PyArr (a : ndarray)
| PyNone
| PyBernGrid.   (* the function object created by [def bern_grid] *)

(** The module namespace: the global names other than [np] (bound by line 1)
    and the builtins. *)
Abbreviation namespace := (gmap string pyval).

(** ** Exceptions and outcomes *)

Inductive exn : Type :=
| NameError (name : string)      (* name '...' is not defined *)
| TypeError (what : string)
| ValueError (what : string).

Definition exn_class (e : exn) : string :=
  match e with
  | NameError _ => "NameError"
  | TypeError _ => "TypeError"
  | ValueError _ => "ValueError"
  end.

Inductive outcome (A : Type) : Type :=
| Ok (a : A)
| Raise (line : nat) (e : exn).
Arguments Ok {A} a.
Arguments Raise {A} line e.

#[global] Instance outcome_ret : MRet outcome := fun A a => Ok a.

#[global] Instance outcome_bind : MBind outcome := fun A B k m =>
  match m with
  | Ok a => k a
  | Raise ln e => Raise ln e
  end.

Definition raises {A} (m : outcome A) : Prop :=
  match m with Ok _ => False | Raise _ _ => True end.

Definition raised_at {A} (m : outcome A) : option nat :=
  match m with Ok _ => None | Raise ln _ => Some ln end.

Definition raised_class {A} (m : outcome A) : option string :=
  match m with Ok _ => None | Raise _ e => Some (exn_class e) end.

(** Reading a global name. *)
Definition load_global (ln : nat) (g : namespace) (x : string) : outcome pyval :=
  match g !! x with
  | Some v => Ok v
  | None => Raise ln (NameError x)
  end.

(** ** numpy operations used by [bern_grid] *)

(** Shapes [(n,)] and [(m,)] broadcast when [n = m] or one of them is 1. *)
Fixpoint zip_with' {A B C} (f : A -> B -> C) (la : list A) (lb : list B) : list C :=
  match la, lb with
  | a :: la, b :: lb => f a b :: zip_with' f la lb
  | _, _ => []
  end.

Definition broadcast {A B C} (f : A -> B -> C) (la : list A) (lb : list B)
  : option (list C) :=
  if (length la =? length lb)%nat then Some (zip_with' f la lb)
  else match la, lb with
       | [a], _ => Some (map (f a) lb)
       | _, [b] => Some (map (fun a => f a b) la)
       | _, _ => None
       end.

Definition shape_error : exn :=
  ValueError "operands could not be broadcast together".

Definition xor_error : exn :=
  TypeError "ufunc 'bitwise_xor' not supported for the input types".

(** [v == 1]: elementwise on an array, Python equality otherwise. *)
Definition eq_one (v : pyval) : list bool :=
  match v with
  | PyInt z => [z =? 1]
  | PyFloat f => [PrimFloat.eqb f 1]
  | PyArr (Int64Arr l) => map (fun z => z =? 1) l
  | PyArr (Float64Arr l) => map (fun f => PrimFloat.eqb f 1) l
  | PyNone | PyBernGrid => [false]
  end.

(** [np.count_nonzero] of a boolean array (or boolean). *)
Definition count_nonzero (bs : list bool) : Z :=
  Z.of_nat (length (List.filter (fun b : bool => b) bs)).

(** [k - a] for a Python int [k]. *)
Definition rsub_int (k : Z) (a : ndarray) : ndarray :=
  match a with
  | Int64Arr l => Int64Arr (map (fun x => Int64.sub k x) l)
  | Float64Arr l => Float64Arr (map (fun x => PrimFloat.sub (Int64.to_float k) x) l)
  end.

(** [k * a] for a Python int [k]. *)
Definition mul_int (k : Z) (a : ndarray) : ndarray :=
  match a with
  | Int64Arr l => Int64Arr (map (fun x => Int64.mul k x) l)
  | Float64Arr l => Float64Arr (map (fun x => PrimFloat.mul (Int64.to_float k) x) l)
  end.

(** [a ^ b] on arrays: the ufunc [bitwise_xor] has no loop for float64; the
    dtypes are resolved before the shapes are broadcast. *)
Definition bitwise_xor (ln : nat) (a b : ndarray) : outcome ndarray :=
  match a, b with
  | Int64Arr la, Int64Arr lb =>
      match broadcast Int64.xor la lb with
      | Some l => Ok (Int64Arr l)
      | None => Raise ln shape_error
      end
  | _, _ => Raise ln xor_error
  end.

(** [a ^ k] for a Python int [k]. *)
Definition bitwise_xor_int (ln : nat) (a : ndarray) (k : Z) : outcome ndarray :=
  match a with
  | Int64Arr la => Ok (Int64Arr (map (fun x => Int64.xor x k) la))
  | Float64Arr _ => Raise ln xor_error
  end.

(** [a * b] on arrays; int64 with float64 gives float64. *)
Definition multiply (ln : nat) (a b : ndarray) : outcome ndarray :=
  let res {A} (mk : list A -> ndarray) (o : option (list A)) :=
    match o with Some l => Ok (mk l) | None => Raise ln shape_error end in
  match a, b with
  | Int64Arr la, Int64Arr lb => res Int64Arr (broadcast Int64.mul la lb)
  | Int64Arr la, Float64Arr lb =>
      res Float64Arr (broadcast (fun x y => PrimFloat.mul (Int64.to_float x) y) la lb)
  | Float64Arr la, Int64Arr lb =>
      res Float64Arr (broadcast (fun x y => PrimFloat.mul x (Int64.to_float y)) la lb)
  | Float64Arr la, Float64Arr lb => res Float64Arr (broadcast PrimFloat.mul la lb)
  end.

(** numpy's summation of float64, on 8 to 128 elements: eight running sums
    over the blocks of eight, their total taken pairwise, then the elements
    left over one by one. *)
Fixpoint sum_blocks (r0 r1 r2 r3 r4 r5 r6 r7 : float) (a : list float) : float :=
  match a with
  | a0 :: a1 :: a2 :: a3 :: a4 :: a5 :: a6 :: a7 :: rest =>
      sum_blocks (r0 + a0) (r1 + a1) (r2 + a2) (r3 + a3)
                 (r4 + a4) (r5 + a5) (r6 + a6) (r7 + a7) rest
  | _ =>
      fold_left PrimFloat.add a
        (((r0 + r1) + (r2 + r3)) + ((r4 + r5) + (r6 + r7)))%float
  end.

Definition block_sum (a : list float) : float :=
  match a with
  | a0 :: a1 :: a2 :: a3 :: a4 :: a5 :: a6 :: a7 :: rest =>
      sum_blocks a0 a1 a2 a3 a4 a5 a6 a7 rest
  | _ => fold_left PrimFloat.add a 0%float
  end.

(** numpy's pairwise summation: fewer than 8 elements are added one by one,
    up to 128 go through [block_sum], and a longer array is split near its
    middle, at a multiple of 8.  The recursion halves the array; [fuel] of
    the length of the array is enough. *)
Fixpoint pairwise_sum (fuel : nat) (a : list float) : float :=
  let n := length a in
  if (n <? 8)%nat then fold_left PrimFloat.add a 0%float
  else if (n <=? 128)%nat then block_sum a
  else
    match fuel with
    | O => block_sum a
    | S fuel' =>
        let n2 := (n / 2 - (n / 2) mod 8)%nat in
        (pairwise_sum fuel' (firstn n2 a) + pairwise_sum fuel' (skipn n2 a))%float
    end.

(** [np.sum]: the reduction starts from zero.  On float64 the array is summed
    pairwise and added to it; on int64 the order is immaterial. *)
Definition np_sum (a : ndarray) : npscalar :=
  match a with
  | Int64Arr l => NpInt64 (fold_left Int64.add l 0)
  | Float64Arr l => NpFloat64 (0 + pairwise_sum (length l) l)%float
  end.

Definition scalar_to_float (s : npscalar) : float :=
  match s with
  | NpInt64 z => Int64.to_float z
  | NpFloat64 f => f
  end.

(** [a / s]: true division, always float64; a zero divisor gives [inf] or
    [nan] (with a warning), not an exception. *)
Definition true_divide (a : ndarray) (s : npscalar) : ndarray :=
  let d := scalar_to_float s in
  match a with
  | Int64Arr l => Float64Arr (map (fun x => PrimFloat.div (Int64.to_float x) d) l)
  | Float64Arr l => Float64Arr (map (fun x => PrimFloat.div x d) l)
  end.

(** ** [bern_grid], lines 34-45 *)

(** The local variables after line 45. *)
Record locals : Type := {
  ones : Z;
  N_ : Z;                                (* [N] in the source *)
  p_data_given_theta : ndarray;
  p_data : npscalar;
  p_theta_given_data : ndarray
}.

(** The arguments are given as the arrays that line 34 makes of them.
    [credib] and [n_to_plot] are not read before line 49.
    Line 41 is parsed by Python as
    [(theta ^ (ones * (1 - theta))) ^ (N - ones)]: [^] is bitwise xor and
    binds less tightly than [*] and [-]. *)
Definition bern_grid (g : namespace) (theta p_theta real_data : ndarray)
    (credib : float) (n_to_plot : option Z) : outcome locals :=
  (* 37 *) Data ← load_global 37 g "Data";
           let ones := count_nonzero (eq_one Data) in
  (* 38 *) let N := len real_data in
  (* 41 *) x ← bitwise_xor 41 theta (mul_int ones (rsub_int 1 theta));
           p_data_given_theta ← bitwise_xor_int 41 x (N - ones);
  (* 44 *) lp ← multiply 44 p_data_given_theta p_theta;
           let p_data := np_sum lp in
  (* 45 *) lp' ← multiply 45 p_data_given_theta p_theta;
           let p_theta_given_data := true_divide lp' p_data in
  Ok {| ones := ones; N_ := N;
        p_data_given_theta := p_data_given_theta;
        p_data := p_data;
        p_theta_given_data := p_theta_given_data |}.

(** ** Importing the module *)

(** Python compiles a file as a whole before it runs its first statement.
    Lines 1-63 are Python; the first text that is not is the call of [plot]
    on lines 64-67, written in R. *)

Definition is_name_start (c : ascii) : bool :=
  let n := nat_of_ascii c in
  ((65 <=? n) && (n <=? 90) || (97 <=? n) && (n <=? 122) || (n =? 95))%nat.

Definition is_name_char (c : ascii) : bool :=
  let n := nat_of_ascii c in
  is_name_start c || ((48 <=? n) && (n <=? 57))%nat.

Definition reserved_words : list string :=
  ["False"; "None"; "True"; "and"; "as"; "assert"; "async"; "await"; "break";
   "class"; "continue"; "def"; "del"; "elif"; "else"; "except"; "finally";
   "for"; "from"; "global"; "if"; "import"; "in"; "is"; "lambda"; "nonlocal";
   "not"; "or"; "pass"; "raise"; "return"; "try"; "while"; "with"; "yield"].

(** A Python name: a letter or underscore, then letters, digits and
    underscores, and no reserved word. *)
Definition is_identifier (s : string) : bool :=
  match s with
  | EmptyString => false
  | String c s' =>
      is_name_start c && forallb is_name_char (list_ascii_of_string s')
      && negb (existsb (String.eqb s) reserved_words)
  end.

(** The keyword arguments of the call of [plot], lines 64-67: the line of
    each and the text left of its [=]. *)
Definition plot_keywords : list (nat * string) :=
  [(64, "type"); (64, "pch"); (64, "cex");
   (65, "xlim"); (65, "ylim"); (65, "cex.axis");
   (66, "xlab"); (66, "ylab"); (66, "cex.lab");
   (67, "main"); (67, "cex.main"); (67, "col")]%nat.

(** In a call, Python's grammar wants a name left of [=]; the first keyword
    that is none is where the compilation of the file stops. *)
Definition first_syntax_error : option nat :=
  match List.find (fun k => negb (is_identifier (snd k))) plot_keywords with
  | Some k => Some (fst k)
  | None => None
  end.

Inductive import_outcome : Type :=
| SyntaxError (line : nat)                (* nothing of the file was run *)
| Executed (r : outcome namespace).       (* the module body was run *)

(** [import BernGrid].  What running the module body would give is a
    parameter: the body has no reading as Python from line 64 on. *)
Definition import_BernGrid (body : outcome namespace) : import_outcome :=
  match first_syntax_error with
  | Some ln => SyntaxError ln
  | None => Executed body
  end.

(** ** The grid of the demonstration, line 127 *)

Definition fits_int64 (z : Z) : bool :=
  (Int64.min_signed <=? z) && (z <=? Int64.max_signed).

(** [np.arange(start, stop, step)] on Python ints that fit int64, with
    [step > 0]: the int64 array of the values [start + i * step] below
    [stop].  Other arguments, for which numpy may choose another dtype, are
    outside this definition ([None]). *)
Definition np_arange (start stop step : Z) : option ndarray :=
  if fits_int64 start && fits_int64 stop && fits_int64 step && (0 <? step)
  then Some (Int64Arr (map (fun i => start + Z.of_nat i * step)
                         (seq 0 (Z.to_nat ((stop - start + step - 1) / step)))))
  else None.

(** ** Reference definitions from the specification *)

(** The binomial kernel, with [0 ^ 0 = 1]. *)
Definition binomial_kernel (theta : Q) (ones M : Z) : Q :=
  (theta ^ ones * (1 - theta) ^ (M - ones))%Q.

(** The evidence: the sum of kernel times prior over the grid. *)
Definition evidence (grid prior : list Q) (ones M : Z) : Q :=
  fold_right Qplus 0%Q
    (zip_with' (fun th pr => (binomial_kernel th ones M * pr)%Q) grid prior).

(** The number of 1s among the observations. *)
Definition observed_ones (real_data : ndarray) : Z :=
  count_nonzero (eq_one (PyArr real_data)).

(** The exact rational value of a float64, if it is finite. *)
Definition float_to_Q (f : float) : option Q :=
  match Prim2SF f with
  | S754_zero _ => Some 0%Q
  | S754_finite s m e =>
      Some ((if s then -1 else 1) * inject_Z (Z.pos m) * 2 ^ e)%Q
  | S754_infinity _ | S754_nan => None
  end.

Definition exact (a : ndarray) : list (option Q) :=
  match a with
  | Int64Arr l => map (fun z => Some (inject_Z z)) l
  | Float64Arr l => map float_to_Q l
  end.

(** "The likelihood computed at every grid point is the binomial kernel of
    the observations." *)
Definition likelihood_is_kernel (theta real_data : ndarray) (r : outcome locals)
  : Prop :=
  exists l, r = Ok l /\
    Forall2 (fun th L => exists q v, th = Some q /\ L = Some v /\
               (v == binomial_kernel q (observed_ones real_data) (len real_data))%Q)
            (exact theta) (exact (p_data_given_theta l)).

Definition floats (a : ndarray) : list float :=
  match a with
  | Int64Arr l => map Int64.to_float l
  | Float64Arr l => l
  end.

(** "Every element is non-negative and the elements sum to 1 within 1e-9." *)
Definition normalised (a : ndarray) : bool :=
  forallb (fun x => PrimFloat.leb 0 x) (floats a)
  && PrimFloat.leb (PrimFloat.abs (scalar_to_float (np_sum a) - 1)) 1e-9.

Definition posterior_is_normalised (r : outcome locals) : Prop :=
  exists l, r = Ok l /\ normalised (p_theta_given_data l) = true.

(** "The posterior equals the prior elementwise", within [tol]. *)
Definition close (tol : float) (a b : ndarray) : bool :=
  (length (floats a) =? length (floats b))%nat
  && forallb (fun xy => PrimFloat.leb (PrimFloat.abs (fst xy - snd xy)) tol)
             (combine (floats a) (floats b)).

Definition posterior_is_prior (p_theta : ndarray) (r : outcome locals) : Prop :=
  exists l, r = Ok l /\ close 1e-9 (p_theta_given_data l) p_theta = true.

(** [nan] or an infinity. *)
Definition not_finite (x : float) : bool := negb (PrimFloat.is_finite x).

(** "A zero evidence is reported as a DegenerateEvidence error." *)
Definition reports_degenerate_evidence (r : outcome locals) : Prop :=
  raised_class r = Some "DegenerateEvidence".

(** "Invalid input is rejected before any computation": an InvalidInput
    error, raised before the likelihood line. *)
Definition rejects_invalid_input (r : outcome locals) : Prop :=
  raised_class r = Some "InvalidInput" /\
  exists ln, raised_at r = Some ln /\ (ln < 41)%nat.

(** "The import fails while the demonstration runs, on an undefined
    name." *)
Definition fails_on_undefined_name (r : import_outcome) : Prop :=
  exists ln x, r = Executed (Raise ln (NameError x)) /\
    In x ["c"; "openGraph"; "BernGrid"].

(** One array is a reordering of the other. *)
Definition permuted (a b : ndarray) : Prop :=
  match a, b with
  | Int64Arr l, Int64Arr l' => Permutation l l'
  | Float64Arr l, Float64Arr l' => Permutation l l'
  | _, _ => False
  end.

(** ** The highest density interval

    Line 100 sources [HDIofGrid.R] and line 101 calls [HDIofGrid]; the file
    is not part of the sources.  Masses are exact rationals here. *)

Module HDI.

Local Open Scope Q_scope.

Record HDIinfo : Type := {
  indices : list nat;      (* the included grid indices, heaviest first *)
  mass : Q;                (* the cumulative mass achieved *)
  height : option Q        (* the waterline; [None] when nothing is included *)
}.

Definition sum_masses (l : list Q) : Q := fold_right Qplus 0 l.

(** Modelled from the spec: the minimum of the masses of the included
    indices, for the height of [HDIofGrid]. *)
Fixpoint minimum (l : list Q) : option Q :=
  match l with
  | [] => None
  | x :: l' =>
      match minimum l' with
      | None => Some x
      | Some m => Some (if Qle_bool x m then x else m)
      end
  end.

Section Grid.

Variable posterior : list Q.

Definition mass_at (i : nat) : Q := nth i posterior 0.

(** Index [i] is at least as heavy as index [j]. *)
Definition heavier (i j : nat) : Prop := mass_at j <= mass_at i.

(** Modelled from the spec: the sort of [HDIofGrid], "sort grid indices by
    descending posterior mass ... breaking ties by original order".  An
    index is put in front of the first index that is not heavier. *)
Fixpoint insert_desc (i : nat) (s : list nat) : list nat :=
  match s with
  | [] => [i]
  | j :: s' =>
      if Qle_bool (mass_at j) (mass_at i) then i :: s else j :: insert_desc i s'
  end.

Definition sort_desc : list nat :=
  fold_right insert_desc [] (seq 0 (length posterior)).

(** Modelled from the spec: the loop of [HDIofGrid], "accumulate indices
    until cumulative mass >= credible_mass". *)
Fixpoint accumulate (cred : Q) (s : list nat) (cum : Q) : list nat * Q :=
  match s with
  | [] => ([], cum)
  | i :: s' =>
      if Qle_bool cred cum then ([], cum)
      else let (inc, m) := accumulate cred s' (cum + mass_at i) in (i :: inc, m)
  end.

(** Modelled from the spec: [HDIofGrid], absent from the sources.  It
    exposes the included indices, the achieved cumulative mass and the
    waterline height, "the minimum posterior mass among included indices". *)
Definition HDIofGrid (cred : Q) : HDIinfo :=
  let (inc, m) := accumulate cred sort_desc 0 in
  {| indices := inc; mass := m; height := minimum (map mass_at inc) |}.

End Grid.

End HDI.

(** ** Inputs used in the examples *)

(** The scenario of the specification. *)
Definition grid5 : ndarray := Float64Arr [0.1; 0.3; 0.5; 0.7; 0.9]%float.
Definition prior5 : ndarray := Float64Arr [0.1; 0.2; 0.4; 0.2; 0.1]%float.
Definition flips4 : ndarray := Int64Arr [1; 1; 1; 0].

(** A namespace in which a caller has bound [Data]. *)
Definition with_Data (d : ndarray) : namespace := <["Data" := PyArr d]> ∅.

(** ** Further reading of lines 34-49 *)

(** Shapes [(n,)] and [(m,)] can be broadcast together. *)
Definition broadcastable (n m : Z) : bool :=
  (n =? m) || (n =? 1) || (m =? 1).

(** The length of the result of broadcasting [(n,)] with [(m,)]. *)
Definition broadcast_len (n m : Z) : Z := if n =? 1 then m else n.

(** Line 41 at one grid point of an int64 grid. *)
Definition xor_likelihood (ones N theta : Z) : Z :=
  Int64.xor (Int64.xor theta (Int64.mul ones (Int64.sub 1 theta))) (N - ones).

(** The number of elements that [v == 1] compares. *)
Definition size_of (v : pyval) : Z := Z.of_nat (length (eq_one v)).

(** The values of an int64 array. *)
Definition int64_values (a : ndarray) : list Z :=
  match a with
  | Int64Arr l => l
  | Float64Arr _ => []
  end.

(** Line 49, [fig, ax = plt.subplots(3,1,figsize=(8,4))], begins by reading
    the global [plt]; the file imports numpy only.  The call is followed up
    to that read. *)
Definition bern_grid_to_line_49 (g : namespace) (theta p_theta real_data : ndarray)
    (credib : float) (n_to_plot : option Z) : outcome (locals * pyval) :=
  l ← bern_grid g theta p_theta real_data credib n_to_plot;
  (* 49 *) plt ← load_global 49 g "plt";
  Ok (l, plt).

(** ** The thinning of the comb, lines 52-59

    [Theta] and [nToPlot] are global names in the source; they are read
    here as an array and a Python int. *)

(** The exceptions of lines 52-59: Python's [ZeroDivisionError] beside
    those of numpy. *)
Inductive thin_exn : Type :=
| ZeroDivisionError
| NumpyError (e : exn).

Inductive thinned : Type :=
| Unassigned                          (* line 53 is false: no [thinIdx] *)
| Assigned (thinIdx : ndarray)
| Raised (line : nat) (e : thin_exn).

(** [int(a/b)] on Python ints: the quotient truncated toward zero ([a/b] is
    a float; for ints below 2^52 in magnitude it truncates to the same
    integer); [None] stands for [ZeroDivisionError]. *)
Definition int_of_quotient (a b : Z) : option Z :=
  if b =? 0 then None else Some (Z.quot a b).

(** [np.arange(start, stop, step)] on Python ints, for a step of either
    sign: [ceil((stop - start) / step)] values, none if that is negative;
    [None] stands for the [ZeroDivisionError] of a zero step. *)
Definition np_arange_step (start stop step : Z) : option ndarray :=
  if step =? 0 then None
  else Some (Int64Arr (map (fun i => start + Z.of_nat i * step)
                         (seq 0 (Z.to_nat (- ((start - stop) / step)))))).

(** [np.concatenate] of an array and a Python int: the int is an array of
    no dimension. *)
Definition concatenate_error : exn :=
  ValueError "all the input arrays must have same number of dimensions".

(** [a[start:stop]] for non-negative bounds. *)
Definition slice (a : ndarray) (start stop : Z) : ndarray :=
  let cut {A} (l : list A) :=
    skipn (Z.to_nat start) (firstn (Z.to_nat stop) l) in
  match a with
  | Int64Arr l => Int64Arr (cut l)
  | Float64Arr l => Float64Arr (cut l)
  end.

Definition thin_teeth (Theta : ndarray) (nToPlot : Z) : thinned :=
  (* 52 *) let nteeth := len Theta in
  (* 53 *) if nteeth >? nToPlot then
  (* 54 *)   match int_of_quotient nteeth nToPlot with
             | None => Raised 54 ZeroDivisionError
             | Some step =>
                 match np_arange_step 1 nteeth step with
                 | None => Raised 54 ZeroDivisionError
                 | Some thinIdx =>
  (* 56 *)           if len thinIdx <? len Theta then
  (* 57 *)             Raised 57 (NumpyError concatenate_error)
                     else
  (* 59 *)             Assigned (slice thinIdx 1 nteeth)
                 end
             end
           else Unassigned.

(** * Properties *)

(** ** Runs on concrete inputs *)

Example bern_grid_scenario_Data_unbound :
  bern_grid ∅ grid5 prior5 flips4 0.95%float None
  = Raise 37 (NameError "Data").
Proof. reflexivity. Qed.

Example bern_grid_scenario_Data_bound :
  bern_grid (with_Data flips4) grid5 prior5 flips4 0.95%float None
  = Raise 41 xor_error.
Proof. reflexivity. Qed.

Example bern_grid_int64_grid :
  bern_grid (with_Data flips4) (Int64Arr [0; 1]) (Float64Arr [0.5; 0.5]%float)
            flips4 0.95%float None
  = Ok {| ones := 3; N_ := 4;
          p_data_given_theta := Int64Arr [2; 0];
          p_data := NpFloat64 1;
          p_theta_given_data := Float64Arr [1; 0]%float |}.
Proof. reflexivity. Qed.

Example bern_grid_prior_broadcast :
  bern_grid (with_Data flips4) (Int64Arr [0; 1]) (Float64Arr [0.5]%float)
            flips4 0.95%float None
  = Ok {| ones := 3; N_ := 4;
          p_data_given_theta := Int64Arr [2; 0];
          p_data := NpFloat64 1;
          p_theta_given_data := Float64Arr [1; 0]%float |}.
Proof. reflexivity. Qed.

Example np_arange_0_10_3 : np_arange 0 10 3 = Some (Int64Arr [0; 3; 6; 9]).
Proof. reflexivity. Qed.

Example np_arange_0_1_11 : np_arange 0 1 11 = Some (Int64Arr [0]).
Proof. reflexivity. Qed.

Example to_float_negative : Int64.to_float (-3) = (-3)%float.
Proof. reflexivity. Qed.

Example kernel_scenario :
  (binomial_kernel (5 # 10) 3 4 == 1 # 16)%Q /\
  (binomial_kernel 0 0 0 == 1)%Q /\
  (binomial_kernel 0 1 1 == 0)%Q /\
  (binomial_kernel 1 0 1 == 0)%Q.
Proof. repeat split. Qed.

Example sort_desc_ties :
  HDI.sort_desc [2 # 10; 4 # 10; 2 # 10; 4 # 10]%Q = [1; 3; 0; 2]%nat.
Proof. reflexivity. Qed.

Example HDIofGrid_scenario :
  let h := HDI.HDIofGrid [1 # 10; 2 # 10; 4 # 10; 2 # 10; 1 # 10]%Q (7 # 10)%Q in
  HDI.indices h = [2; 1; 3]%nat /\
  (HDI.mass h == 8 # 10)%Q /\
  HDI.height h = Some (2 # 10)%Q.
Proof. repeat split. Qed.

(** ** int64 arithmetic *)

Lemma wrap_in_range z : Int64.in_range (Int64.wrap z).
Proof.
  unfold Int64.in_range, Int64.wrap, Int64.min_signed, Int64.max_signed.
  pose proof (Z.mod_pos_bound (z + 2 ^ 63) (2 ^ 64) ltac:(lia)). lia.
Qed.

Lemma wrap_small z : Int64.in_range z -> Int64.wrap z = z.
Proof.
  unfold Int64.in_range, Int64.wrap, Int64.min_signed, Int64.max_signed.
  intros H. rewrite Z.mod_small; lia.
Qed.

(** ** Where [bern_grid] stops *)

Lemma bern_grid_Data_unbound g theta p_theta real_data credib n_to_plot :
  g !! "Data" = None ->
  bern_grid g theta p_theta real_data credib n_to_plot
  = Raise 37 (NameError "Data").
Proof.
  intros H. unfold bern_grid, load_global. rewrite H. reflexivity.
Qed.

Lemma bern_grid_float_grid g d l p_theta real_data credib n_to_plot :
  g !! "Data" = Some d ->
  bern_grid g (Float64Arr l) p_theta real_data credib n_to_plot
  = Raise 41 xor_error.
Proof.
  intros H. unfold bern_grid, load_global. rewrite H. reflexivity.
Qed.

Lemma bern_grid_float_grid_raises g l p_theta real_data credib n_to_plot :
  raises (bern_grid g (Float64Arr l) p_theta real_data credib n_to_plot).
Proof.
  destruct (g !! "Data") as [d|] eqn:H.
  - rewrite (bern_grid_float_grid g d) by assumption. exact I.
  - rewrite bern_grid_Data_unbound by assumption. exact I.
Qed.

Lemma raises_not_Ok {A} (m : outcome A) a : raises m -> m <> Ok a.
Proof. intros H ->. exact H. Qed.

(** C9: a call of [bern_grid] stops with an exception before line 45
    computes the posterior.  Line 37 reads the global name [Data]: where it
    is unbound, and the module never binds it, every input raises
    [NameError] there; where a caller has bound it, line 41 applies [^],
    bitwise xor, to the float64 grid and raises [TypeError]. *)
Theorem bern_grid_raises_before_posterior
    g theta p_theta real_data credib n_to_plot :
  (g !! "Data" = None ->
   bern_grid g theta p_theta real_data credib n_to_plot
   = Raise 37 (NameError "Data")) /\
  (forall d, g !! "Data" = Some d -> is_float theta = true ->
   bern_grid g theta p_theta real_data credib n_to_plot
   = Raise 41 xor_error /\ exn_class xor_error = "TypeError").
Proof.
  split.
  - apply bern_grid_Data_unbound.
  - intros d Hd Hf. destruct theta as [l|l]; [discriminate Hf|].
    split; [|reflexivity]. exact (bern_grid_float_grid g d l _ _ _ _ Hd).
Qed.

Lemma bern_grid_raises_before_posterior_witness :
  bern_grid ∅ grid5 prior5 flips4 0.95%float None = Raise 37 (NameError "Data") /\
  bern_grid (with_Data flips4) grid5 prior5 flips4 0.95%float None
  = Raise 41 xor_error.
Proof.
  split.
  - apply (proj1 (bern_grid_raises_before_posterior
                    ∅ grid5 prior5 flips4 0.95%float None)).
    reflexivity.
  - apply (proj2 (bern_grid_raises_before_posterior
                    (with_Data flips4) grid5 prior5 flips4 0.95%float None)
             (PyArr flips4)); reflexivity.
Defined.

(** ** The observations *)

Lemma permuted_len a b : permuted a b -> len a = len b.
Proof.
  destruct a as [l|l], b as [l'|l']; simpl; try contradiction;
    intros H; f_equal; apply Permutation_length; exact H.
Qed.

(** [real_data] is read by line 38 only, for its length. *)
Lemma bern_grid_reads_length g theta p_theta obs obs' credib n_to_plot :
  len obs = len obs' ->
  bern_grid g theta p_theta obs credib n_to_plot
  = bern_grid g theta p_theta obs' credib n_to_plot.
Proof. intros H. unfold bern_grid. rewrite H. reflexivity. Qed.

(** C6: the observations do not decide what [bern_grid] computes.  On a
    float64 grid the call raises and returns nothing.  On an int64 grid the
    count of 1s is taken from the global [Data] and [real_data] is read for
    its length only: four heads and four tails give one and the same
    outcome, where the binomial kernel tells them apart. *)
Theorem observations_do_not_decide_the_result :
  let heads := Int64Arr [1; 1; 1; 1] in
  let tails := Int64Arr [0; 0; 0; 0] in
  let call obs :=
    bern_grid (with_Data (Int64Arr [1])) (Int64Arr [0; 1])
              (Float64Arr [0.5; 0.5]%float) obs 0.95%float None in
  (forall g l p_theta obs credib n_to_plot,
     raises (bern_grid g (Float64Arr l) p_theta obs credib n_to_plot)) /\
  observed_ones heads = 4 /\ observed_ones tails = 0 /\
  call heads
  = Ok {| ones := 1; N_ := 4;
          p_data_given_theta := Int64Arr [2; 2];
          p_data := NpFloat64 2;
          p_theta_given_data := Float64Arr [0.5; 0.5]%float |} /\
  call tails = call heads /\
  (binomial_kernel 1 4 4 == 1)%Q /\ (binomial_kernel 1 0 4 == 0)%Q.
Proof.
  cbv zeta. split; [|repeat split].
  intros. apply bern_grid_float_grid_raises.
Qed.

(** ** The likelihood *)

Lemma kernel_not_reached theta real_data (r : outcome locals) :
  raises r -> ~ likelihood_is_kernel theta real_data r.
Proof. intros H (l & E & _). exact (raises_not_Ok r l H E). Qed.

(** C1: the likelihood line does not compute the binomial kernel.  On a
    float64 grid it raises and leaves no likelihood; on the int64 grid
    [0, 1] with one observed head it gives [1, 1], where the kernel is
    [0, 1]. *)
Theorem likelihood_line_is_not_the_kernel :
  (forall g l p_theta real_data credib n_to_plot,
     ~ likelihood_is_kernel (Float64Arr l) real_data
         (bern_grid g (Float64Arr l) p_theta real_data credib n_to_plot)) /\
  (forall g,
     raises (bern_grid g grid5 prior5 flips4 0.95%float None)) /\
  bern_grid (with_Data (Int64Arr [1])) (Int64Arr [0; 1])
            (Float64Arr [0.5; 0.5]%float) (Int64Arr [1]) 0.95%float None
  = Ok {| ones := 1; N_ := 1;
          p_data_given_theta := Int64Arr [1; 1];
          p_data := NpFloat64 1;
          p_theta_given_data := Float64Arr [0.5; 0.5]%float |} /\
  (binomial_kernel 0 1 1 == 0)%Q /\
  ~ likelihood_is_kernel (Int64Arr [0; 1]) (Int64Arr [1])
      (bern_grid (with_Data (Int64Arr [1])) (Int64Arr [0; 1])
                 (Float64Arr [0.5; 0.5]%float) (Int64Arr [1]) 0.95%float None).
Proof.
  split; [|split; [|split; [|split]]].
  - intros. apply kernel_not_reached, bern_grid_float_grid_raises.
  - intros g. apply bern_grid_float_grid_raises.
  - reflexivity.
  - reflexivity.
  - intros (l & E & F).
    vm_compute in E. injection E as <-.
    simpl in F. inversion F as [|? ? ? ? (q & v & Hq & Hv & K) _]; subst.
    injection Hq as <-. injection Hv as <-.
    vm_compute in K. discriminate K.
Qed.

(** ** The posterior *)

(** C2: on a float64 grid no posterior is computed, so none that is
    non-negative and sums to 1: the call stops at line 37 or 41. *)
Theorem posterior_not_computed_on_float_grid :
  (forall g l p_theta real_data credib n_to_plot,
     ~ posterior_is_normalised
         (bern_grid g (Float64Arr l) p_theta real_data credib n_to_plot)) /\
  (forall g,
     raised_at (bern_grid g grid5 prior5 flips4 0.95%float None) = Some 37%nat \/
     raised_at (bern_grid g grid5 prior5 flips4 0.95%float None) = Some 41%nat).
Proof.
  split.
  - intros g l p_theta real_data credib n_to_plot (x & E & _).
    exact (raises_not_Ok _ x (bern_grid_float_grid_raises _ _ _ _ _ _) E).
  - intros g. unfold grid5. destruct (g !! "Data") as [d|] eqn:H.
    + right. rewrite (bern_grid_float_grid g d) by assumption. reflexivity.
    + left. rewrite bern_grid_Data_unbound by assumption. reflexivity.
Qed.

(** C5: with no observations the posterior is not the prior.  On a float64
    grid the call raises; on the int64 grid [0, 1] with the prior
    [0.5, 0.5] the likelihood is the grid itself and the posterior is
    [0, 1]. *)
Theorem empty_data_posterior_is_not_prior :
  (forall g l p_theta credib n_to_plot,
     ~ posterior_is_prior p_theta
         (bern_grid g (Float64Arr l) p_theta (Float64Arr []) credib n_to_plot)) /\
  bern_grid (with_Data (Float64Arr [])) (Int64Arr [0; 1])
            (Float64Arr [0.5; 0.5]%float) (Float64Arr []) 0.95%float None
  = Ok {| ones := 0; N_ := 0;
          p_data_given_theta := Int64Arr [0; 1];
          p_data := NpFloat64 0.5;
          p_theta_given_data := Float64Arr [0; 1]%float |} /\
  ~ posterior_is_prior (Float64Arr [0.5; 0.5]%float)
      (bern_grid (with_Data (Float64Arr [])) (Int64Arr [0; 1])
                 (Float64Arr [0.5; 0.5]%float) (Float64Arr []) 0.95%float None).
Proof.
  split; [|split].
  - intros g l p_theta credib n_to_plot (x & E & _).
    exact (raises_not_Ok _ x (bern_grid_float_grid_raises _ _ _ _ _ _) E).
  - reflexivity.
  - intros (l & E & C). vm_compute in E. injection E as <-.
    vm_compute in C. discriminate C.
Qed.

(** ** Dependence on the global [Data] *)

(** C8: [bern_grid] is not a function of its arguments alone.  Line 37
    counts the 1s of the global [Data], so the same arguments give different
    likelihoods, evidences and posteriors under different bindings of
    [Data], and a [NameError] where it is unbound. *)
Theorem bern_grid_depends_on_global_Data :
  let call g :=
    bern_grid g (Int64Arr [0; 1]) (Float64Arr [0.5; 0.5]%float) (Int64Arr [1])
              0.95%float None in
  call (with_Data (Int64Arr [1]))
  = Ok {| ones := 1; N_ := 1;
          p_data_given_theta := Int64Arr [1; 1];
          p_data := NpFloat64 1;
          p_theta_given_data := Float64Arr [0.5; 0.5]%float |} /\
  call (with_Data (Int64Arr [0]))
  = Ok {| ones := 0; N_ := 1;
          p_data_given_theta := Int64Arr [1; 0];
          p_data := NpFloat64 0.5;
          p_theta_given_data := Float64Arr [1; 0]%float |} /\
  call ∅ = Raise 37 (NameError "Data") /\
  call (with_Data (Int64Arr [1])) <> call (with_Data (Int64Arr [0])).
Proof.
  cbv zeta. split; [|split; [|split]]; try reflexivity.
  intros H. vm_compute in H. discriminate H.
Qed.

(** ** Exceptions that lines 34-45 can raise *)

Lemma broadcast_same_length {A B C} (f : A -> B -> C) la lb :
  length la = length lb -> broadcast f la lb = Some (zip_with' f la lb).
Proof.
  intros H. unfold broadcast. rewrite H, Nat.eqb_refl. reflexivity.
Qed.

Lemma broadcast_mismatch {A B C} (f : A -> B -> C) la lb :
  length la <> length lb -> length la <> 1%nat -> length lb <> 1%nat ->
  broadcast f la lb = None.
Proof.
  intros H Ha Hb. unfold broadcast.
  destruct (Nat.eqb_spec (length la) (length lb)) as [E|_]; [contradiction|].
  destruct la as [|a [|a' la]]; destruct lb as [|b [|b' lb]];
    simpl in *; congruence.
Qed.

(** Line 41 on an int64 grid: the xor of two int64 arrays of one shape. *)
Lemma likelihood_line_int64 ln l k :
  bitwise_xor ln (Int64Arr l) (mul_int k (rsub_int 1 (Int64Arr l)))
  = Ok (Int64Arr
          (zip_with' Int64.xor l
             (map (fun x => Int64.mul k x) (map (fun x => Int64.sub 1 x) l)))).
Proof.
  simpl. rewrite broadcast_same_length by (now rewrite !length_map).
  reflexivity.
Qed.

(** The product of lines 44 and 45 is the same expression: where the first
    is defined, so is the second, with the same value. *)
Lemma multiply_line ln ln' a b :
  multiply ln' a b
  = match multiply ln a b with Ok x => Ok x | Raise _ e => Raise ln' e end.
Proof.
  destruct a as [la|la], b as [lb|lb]; simpl;
    match goal with |- context [broadcast ?f ?x ?y] =>
      destruct (broadcast f x y) end; reflexivity.
Qed.

Lemma multiply_raises ln a b k e :
  multiply ln a b = Raise k e -> k = ln /\ e = shape_error.
Proof.
  destruct a as [la|la], b as [lb|lb]; simpl;
    match goal with |- context [broadcast ?f ?x ?y] =>
      destruct (broadcast f x y) end;
    intros H; inversion H; split; reflexivity.
Qed.

Lemma zip_with'_length {A B C} (f : A -> B -> C) la lb :
  length lb = length la -> length (zip_with' f la lb) = length la.
Proof.
  revert lb. induction la as [|a la IH]; intros [|b lb] H; simpl in *;
    try congruence. f_equal. apply IH. congruence.
Qed.

Lemma multiply_mismatch ln a b :
  len a <> len b -> len a <> 1 -> len b <> 1 ->
  multiply ln a b = Raise ln shape_error.
Proof.
  destruct a as [la|la], b as [lb|lb]; simpl; intros H Ha Hb;
    rewrite broadcast_mismatch; try reflexivity; lia.
Qed.

(** What a completed run of lines 34-45 has computed. *)
Lemma bern_grid_Ok g theta p_theta real_data credib n_to_plot l :
  bern_grid g theta p_theta real_data credib n_to_plot = Ok l ->
  exists d lp,
    g !! "Data" = Some d /\
    is_float theta = false /\
    multiply 44 (p_data_given_theta l) p_theta = Ok lp /\
    p_data l = np_sum lp /\
    p_theta_given_data l = true_divide lp (np_sum lp).
Proof.
  unfold bern_grid, load_global.
  destruct (g !! "Data") as [d|]; [|discriminate].
  destruct theta as [t|t]; [|discriminate].
  cbn [mbind outcome_bind].
  rewrite likelihood_line_int64.
  cbn [mbind outcome_bind bitwise_xor_int].
  rewrite (multiply_line 44 45).
  destruct (multiply 44 _ p_theta) as [lp|k e] eqn:M; [|discriminate].
  intros H. injection H as <-. exists d, lp. simpl. auto.
Qed.

(** The exceptions of lines 34-45 and the lines that raise them. *)
Lemma bern_grid_Raise g theta p_theta real_data credib n_to_plot ln e :
  bern_grid g theta p_theta real_data credib n_to_plot = Raise ln e ->
  (ln = 37%nat /\ e = NameError "Data" /\ g !! "Data" = None) \/
  (ln = 41%nat /\ e = xor_error /\ is_float theta = true) \/
  (ln = 44%nat /\ e = shape_error /\ is_float theta = false).
Proof.
  unfold bern_grid, load_global.
  destruct (g !! "Data") as [d|].
  2:{ intros H. inversion H. left. auto. }
  destruct theta as [t|t].
  2:{ intros H. inversion H. right. left. auto. }
  cbn [mbind outcome_bind].
  rewrite likelihood_line_int64.
  cbn [mbind outcome_bind bitwise_xor_int].
  rewrite (multiply_line 44 45).
  destruct (multiply 44 _ p_theta) as [lp|k e'] eqn:M.
  - discriminate.
  - intros H. inversion H; subst. apply multiply_raises in M as [-> ->].
    right. right. auto.
Qed.

(** ** Evidence zero *)

(** Dividing a float64 by a zero gives [nan] or an infinity. *)
Lemma div_by_zero_not_finite (x d : float) :
  PrimFloat.is_zero d = true -> PrimFloat.is_finite (x / d) = false.
Proof.
  unfold PrimFloat.is_zero. rewrite FloatAxioms.eqb_spec.
  replace (Prim2SF zero) with (S754_zero false) by reflexivity.
  intros Hd.
  assert (exists s, Prim2SF d = S754_zero s) as [s Hs].
  { destruct (Prim2SF d) as [s|s| |s m e];
      [now exists s | destruct s; discriminate Hd | discriminate Hd
      | destruct s; discriminate Hd]. }
  unfold PrimFloat.is_finite, PrimFloat.is_nan, PrimFloat.is_infinity.
  rewrite !FloatAxioms.eqb_spec, FloatAxioms.abs_spec, FloatAxioms.div_spec, Hs.
  replace (Prim2SF infinity) with (S754_infinity false) by reflexivity.
  destruct (Prim2SF x) as [sx|sx| |sx mx ex]; try destruct sx; destruct s;
    reflexivity.
Qed.

Lemma true_divide_by_zero a s :
  PrimFloat.is_zero (scalar_to_float s) = true ->
  forallb not_finite (floats (true_divide a s)) = true.
Proof.
  intros Hz. apply forallb_forall. intros y Hy.
  unfold not_finite.
  destruct a as [l|l]; simpl in Hy; apply in_map_iff in Hy as (x & <- & _);
    now rewrite div_by_zero_not_finite.
Qed.

(** C3, as stated, fails: on the grid [1] with prior [1.0] and one observed
    tail the likelihood is 0 and so is the evidence; lines 34-45 raise
    nothing and leave the posterior [nan].  On the float64 grid [0.0] with
    one observed head the call raises [TypeError] (or [NameError]), not
    DegenerateEvidence. *)
Lemma zero_evidence_counterexample :
  let r := bern_grid (with_Data (Int64Arr [0])) (Int64Arr [1])
                     (Float64Arr [1]%float) (Int64Arr [0]) 0.95%float None in
  (binomial_kernel 1 0 1 == 0)%Q /\
  r = Ok {| ones := 0; N_ := 1;
            p_data_given_theta := Int64Arr [0];
            p_data := NpFloat64 0;
            p_theta_given_data := Float64Arr [nan] |} /\
  ~ reports_degenerate_evidence r /\
  ~ reports_degenerate_evidence
      (bern_grid (with_Data (Int64Arr [1])) (Float64Arr [0]%float)
                 (Float64Arr [1]%float) (Int64Arr [1]) 0.95%float None) /\
  ~ reports_degenerate_evidence
      (bern_grid ∅ (Float64Arr [0]%float)
                 (Float64Arr [1]%float) (Int64Arr [1]) 0.95%float None).
Proof.
  cbv zeta. repeat split; try reflexivity;
    intros H; vm_compute in H; discriminate H.
Qed.

(** C3, amended: [bern_grid] never raises DegenerateEvidence.  Line 45
    divides by the evidence unguarded: whenever lines 34-45 complete with an
    evidence of zero, every entry of the posterior they computed is [nan] or
    an infinity. *)
Theorem zero_evidence_is_not_reported
    g theta p_theta real_data credib n_to_plot :
  ~ reports_degenerate_evidence
      (bern_grid g theta p_theta real_data credib n_to_plot) /\
  (forall l,
     bern_grid g theta p_theta real_data credib n_to_plot = Ok l ->
     PrimFloat.is_zero (scalar_to_float (p_data l)) = true ->
     forallb not_finite (floats (p_theta_given_data l)) = true).
Proof.
  split.
  - unfold reports_degenerate_evidence.
    destruct (bern_grid g theta p_theta real_data credib n_to_plot)
      as [l|ln e] eqn:E; [discriminate|].
    apply bern_grid_Raise in E as [(_ & -> & _)|[(_ & -> & _)|(_ & -> & _)]];
      discriminate.
  - intros l E Hz.
    apply bern_grid_Ok in E as (d & lp & _ & _ & _ & Hp & Hq).
    rewrite Hq. apply true_divide_by_zero. now rewrite <- Hp.
Qed.

Lemma zero_evidence_is_not_reported_witness :
  forallb not_finite [nan] = true.
Proof.
  exact (proj2 (zero_evidence_is_not_reported
                  (with_Data (Int64Arr [0])) (Int64Arr [1])
                  (Float64Arr [1]%float) (Int64Arr [0]) 0.95%float None)
           {| ones := 0; N_ := 1;
              p_data_given_theta := Int64Arr [0];
              p_data := NpFloat64 0;
              p_theta_given_data := Float64Arr [nan] |}
           eq_refl eq_refl).
Defined.

(** ** Input validation *)

(** C4, as stated, fails: with a grid of length 5 and a prior of length 4
    the likelihood line runs and the evidence line raises numpy's
    [ValueError]; a [credib] of 1.5 is accepted. *)
Lemma invalid_input_counterexample :
  let grid := Int64Arr [0; 0; 1; 1; 1] in
  let prior := Float64Arr [0.25; 0.25; 0.25; 0.25]%float in
  let g := with_Data (Int64Arr [1]) in
  len grid = 5 /\ len prior = 4 /\
  bern_grid g grid prior (Int64Arr [1]) 0.95%float None
  = Raise 44 shape_error /\
  ~ rejects_invalid_input (bern_grid g grid prior (Int64Arr [1]) 0.95%float None) /\
  ~ rejects_invalid_input (bern_grid ∅ grid5 prior (Int64Arr [1]) 0.95%float None) /\
  ~ rejects_invalid_input
      (bern_grid g (Int64Arr [0; 1]) (Float64Arr [0.5; 0.5]%float) (Int64Arr [1])
                 1.5%float None).
Proof.
  cbv zeta. repeat split; try reflexivity;
    intros [H _]; vm_compute in H; discriminate H.
Qed.

(** C4, amended: [bern_grid] validates nothing and never raises
    InvalidInput.  [credib] has no influence on lines 34-45.  A grid and a
    prior of different lengths, neither of them 1, are found out by numpy
    only: on an int64 grid, with [Data] bound, the likelihood line runs and
    the product of line 44 raises [ValueError]. *)
Theorem inputs_are_not_validated
    g theta p_theta real_data credib n_to_plot :
  raised_class (bern_grid g theta p_theta real_data credib n_to_plot)
  <> Some "InvalidInput" /\
  (forall credib',
     bern_grid g theta p_theta real_data credib' n_to_plot
     = bern_grid g theta p_theta real_data credib n_to_plot) /\
  (forall d,
     g !! "Data" = Some d -> is_float theta = false ->
     len theta <> len p_theta -> len theta <> 1 -> len p_theta <> 1 ->
     bern_grid g theta p_theta real_data credib n_to_plot
     = Raise 44 shape_error).
Proof.
  split; [|split].
  - destruct (bern_grid g theta p_theta real_data credib n_to_plot)
      as [l|ln e] eqn:E; [discriminate|].
    apply bern_grid_Raise in E as [(_ & -> & _)|[(_ & -> & _)|(_ & -> & _)]];
      discriminate.
  - reflexivity.
  - intros d Hd Hf Hne H1 H2.
    destruct theta as [t|t]; [|discriminate Hf].
    unfold bern_grid, load_global. rewrite Hd.
    cbn [mbind outcome_bind].
    rewrite likelihood_line_int64.
    cbn [mbind outcome_bind bitwise_xor_int].
    rewrite (multiply_mismatch 44); [reflexivity|..]; simpl in *;
      rewrite ?length_map, ?zip_with'_length by (now rewrite !length_map);
      assumption.
Qed.

Lemma inputs_are_not_validated_witness :
  bern_grid (with_Data (Int64Arr [1])) (Int64Arr [0; 0; 1; 1; 1])
            (Float64Arr [0.25; 0.25; 0.25; 0.25]%float) (Int64Arr [1])
            1.5%float None
  = Raise 44 shape_error.
Proof.
  apply (proj2 (proj2 (inputs_are_not_validated
                         (with_Data (Int64Arr [1])) (Int64Arr [0; 0; 1; 1; 1])
                         (Float64Arr [0.25; 0.25; 0.25; 0.25]%float)
                         (Int64Arr [1]) 1.5%float None))
           (PyArr (Int64Arr [1])));
    [reflexivity | reflexivity | simpl; lia | simpl; lia | simpl; lia].
Defined.

(** ** The highest density interval *)

Section HDI_properties.

Import HDI.
Local Open Scope Q_scope.

Lemma sum_masses_app l l' : sum_masses (l ++ l') == sum_masses l + sum_masses l'.
Proof.
  induction l as [|x l IH]; simpl.
  - lra.
  - rewrite IH. lra.
Qed.

Lemma sum_masses_perm l l' : Permutation l l' -> sum_masses l == sum_masses l'.
Proof.
  induction 1 as [|x l l' _ IH|x y l|l l' l'' _ IH1 _ IH2]; simpl.
  - reflexivity.
  - rewrite IH. reflexivity.
  - lra.
  - rewrite IH1. exact IH2.
Qed.

Lemma insert_desc_perm post i s : Permutation (insert_desc post i s) (i :: s).
Proof.
  induction s as [|j s IH]; simpl.
  - reflexivity.
  - destruct (Qle_bool (mass_at post j) (mass_at post i)).
    + reflexivity.
    + rewrite IH. apply perm_swap.
Qed.

Lemma sort_desc_perm post :
  Permutation (sort_desc post) (seq 0 (length post)).
Proof.
  unfold sort_desc. induction (seq 0 (length post)) as [|i l IH]; simpl.
  - reflexivity.
  - rewrite insert_desc_perm. now constructor.
Qed.

Lemma map_mass_at_seq post : map (mass_at post) (seq 0 (length post)) = post.
Proof.
  unfold mass_at. induction post as [|x post IH]; simpl.
  - reflexivity.
  - f_equal. rewrite <- seq_shift, map_map. exact IH.
Qed.

Lemma sum_masses_sort_desc post :
  sum_masses (map (mass_at post) (sort_desc post)) == sum_masses post.
Proof.
  rewrite (sum_masses_perm _ (map (mass_at post) (seq 0 (length post)))).
  - now rewrite map_mass_at_seq.
  - apply Permutation_map, sort_desc_perm.
Qed.

(** The loop includes a prefix of the sorted indices, adds their masses
    to the running sum_masses, and stops early only when the sum_masses has reached
    the requested mass. *)
Lemma accumulate_spec post cred s cum :
  exists rest,
    s = (fst (accumulate post cred s cum) ++ rest)%list /\
    snd (accumulate post cred s cum)
    == cum + sum_masses (map (mass_at post) (fst (accumulate post cred s cum))) /\
    (cred <= snd (accumulate post cred s cum) \/ rest = []).
Proof.
  revert cum. induction s as [|i s IH]; intros cum; simpl.
  - exists []. repeat split; simpl; try lra. now right.
  - destruct (Qle_bool cred cum) eqn:E.
    + exists (i :: s). simpl. repeat split; try lra.
      left. now apply Qle_bool_iff.
    + destruct (IH (cum + mass_at post i)) as (rest & Hs & Hm & Hc).
      destruct (accumulate post cred s (cum + mass_at post i)) as [inc m].
      simpl in *. exists rest. repeat split.
      * now f_equal.
      * rewrite Hm. lra.
      * exact Hc.
Qed.

Lemma accumulate_nonempty post cred i s cum :
  cum < cred -> fst (accumulate post cred (i :: s) cum) <> [].
Proof.
  intros H. simpl.
  destruct (Qle_bool cred cum) eqn:E.
  - apply Qle_bool_iff in E. lra.
  - destruct (accumulate post cred s (cum + mass_at post i)). discriminate.
Qed.

Lemma minimum_spec l :
  l <> [] ->
  exists m, minimum l = Some m /\ In m l /\ Forall (fun x => m <= x) l.
Proof.
  induction l as [|x l IH]; [congruence|]. intros _. simpl.
  destruct l as [|y l].
  - exists x. simpl. repeat split; auto. constructor; [lra|constructor].
  - destruct IH as (m & -> & Hin & Hall); [discriminate|].
    destruct (Qle_bool x m) eqn:E.
    + apply Qle_bool_iff in E. exists x. repeat split; auto.
      constructor; [lra|].
      eapply List.Forall_impl; [|exact Hall]. simpl. intros; lra.
    + assert (m < x).
      { destruct (Qlt_le_dec m x) as [|Hle]; [assumption|].
        apply Qle_bool_iff in Hle. congruence. }
      exists m. repeat split; auto. constructor; [lra|exact Hall].
Qed.

Lemma insert_desc_sorted post i s :
  StronglySorted (heavier post) s ->
  StronglySorted (heavier post) (insert_desc post i s).
Proof.
  induction 1 as [|j s Hs IH Hj]; simpl.
  - constructor; constructor.
  - destruct (Qle_bool (mass_at post j) (mass_at post i)) eqn:E.
    + apply Qle_bool_iff in E.
      constructor; [now constructor|].
      constructor; [exact E|].
      eapply List.Forall_impl; [|exact Hj]. unfold heavier. intros; lra.
    + assert (mass_at post i < mass_at post j) as Hlt.
      { destruct (Qlt_le_dec (mass_at post i) (mass_at post j)) as [|Hle];
          [assumption|]. apply Qle_bool_iff in Hle. congruence. }
      constructor; [exact IH|].
      apply List.Forall_forall. intros x Hx.
      eapply Permutation_in in Hx; [|apply insert_desc_perm].
      destruct Hx as [<-|Hx].
      * unfold heavier. lra.
      * rewrite List.Forall_forall in Hj. now apply Hj.
Qed.

Lemma sort_desc_sorted post : StronglySorted (heavier post) (sort_desc post).
Proof.
  unfold sort_desc. induction (seq 0 (length post)) as [|i l IH]; simpl.
  - constructor.
  - now apply insert_desc_sorted.
Qed.

Lemma sorted_app_heavier post l l' :
  StronglySorted (heavier post) (l ++ l') ->
  forall i j, In i l -> In j l' -> mass_at post j <= mass_at post i.
Proof.
  induction l as [|x l IH]; simpl; intros H i j Hi Hj; [contradiction|].
  inversion H as [|? ? Hs Hx]; subst.
  destruct Hi as [<-|Hi].
  - rewrite List.Forall_forall in Hx. apply Hx, in_or_app. now right.
  - now apply IH.
Qed.

(** The height is a waterline: no excluded grid index is heavier. *)
Lemma HDIofGrid_waterline posterior cred m i :
  height (HDIofGrid posterior cred) = Some m ->
  (i < length posterior)%nat ->
  ~ In i (indices (HDIofGrid posterior cred)) ->
  mass_at posterior i <= m.
Proof.
  unfold HDIofGrid.
  pose proof (accumulate_spec posterior cred (sort_desc posterior) 0)
    as (rest & Hs & _ & _).
  pose proof (sort_desc_sorted posterior) as Hsorted.
  pose proof (sort_desc_perm posterior) as Hperm.
  destruct (accumulate posterior cred (sort_desc posterior) 0) as [inc c].
  simpl in *. intros Hm Hi Hni.
  assert (In i rest) as Hrest.
  { assert (In i (inc ++ rest)) as Hin.
    { rewrite <- Hs. eapply Permutation_in; [symmetry; exact Hperm|].
      apply in_seq. lia. }
    apply in_app_or in Hin as [|]; [contradiction|assumption]. }
  destruct (minimum_spec (map (mass_at posterior) inc)) as (x & Hx & Hin & _).
  { intros E. rewrite E in Hm. discriminate. }
  rewrite Hx in Hm. injection Hm as <-.
  apply in_map_iff in Hin as (j & <- & Hj).
  rewrite Hs in Hsorted.
  exact (sorted_app_heavier posterior inc rest Hsorted j i Hj Hrest).
Qed.

(** C7: the interval reaches the requested mass, and its height is the
    least posterior mass among the included indices.  The included indices
    are distinct grid indices and [mass] is the sum of their masses. *)
Theorem HDIofGrid_mass_and_height posterior cred :
  sum_masses posterior == 1 -> 0 < cred -> cred < 1 ->
  let h := HDIofGrid posterior cred in
  cred <= mass h /\
  mass h == sum_masses (map (mass_at posterior) (indices h)) /\
  List.NoDup (indices h) /\
  Forall (fun i => (i < length posterior)%nat) (indices h) /\
  exists m, height h = Some m /\
    Exists (fun i => mass_at posterior i = m) (indices h) /\
    Forall (fun i => m <= mass_at posterior i) (indices h).
Proof.
  intros Hsum Hpos Hlt. unfold HDIofGrid.
  pose proof (accumulate_spec posterior cred (sort_desc posterior) 0)
    as (rest & Hs & Hm & Hc).
  pose proof (sort_desc_perm posterior) as Hperm.
  pose proof (sum_masses_sort_desc posterior) as Htot.
  assert (fst (accumulate posterior cred (sort_desc posterior) 0) <> [])
    as Hne.
  { destruct (sort_desc posterior) as [|i s] eqn:Es.
    - simpl in Htot. lra.
    - now apply accumulate_nonempty. }
  destruct (accumulate posterior cred (sort_desc posterior) 0) as [inc m].
  simpl in *.
  assert (List.NoDup (inc ++ rest)) as Hnd.
  { rewrite <- Hs. eapply Permutation_NoDup.
    - symmetry. exact Hperm.
    - apply List.seq_NoDup. }
  repeat split.
  - destruct Hc as [Hc| ->]; [exact Hc|].
    rewrite app_nil_r in Hs. subst inc. lra.
  - rewrite Hm. lra.
  - eapply List.NoDup_app_remove_r. exact Hnd.
  - apply List.Forall_forall. intros i Hi.
    assert (In i (seq 0 (length posterior))) as Hin.
    { eapply Permutation_in; [exact Hperm|].
      rewrite Hs. apply in_or_app. now left. }
    apply in_seq in Hin. lia.
  - destruct (minimum_spec (map (mass_at posterior) inc)) as (x & Hx & Hin & Hall).
    { destruct inc; [congruence|discriminate]. }
    exists x. repeat split.
    + exact Hx.
    + apply List.Exists_exists. apply in_map_iff in Hin as (i & Hi & Hin).
      now exists i.
    + apply List.Forall_forall. intros i Hi.
      rewrite List.Forall_forall in Hall. apply Hall. now apply in_map.
Qed.

Lemma HDIofGrid_mass_and_height_witness :
  95 # 100 <= mass (HDIofGrid [1 # 10; 2 # 10; 4 # 10; 2 # 10; 1 # 10] (95 # 100)).
Proof.
  exact (proj1 (HDIofGrid_mass_and_height
                  [1 # 10; 2 # 10; 4 # 10; 2 # 10; 1 # 10] (95 # 100)
                  eq_refl eq_refl eq_refl)).
Defined.

End HDI_properties.

(** * Further properties *)

(** ** Broadcasting *)

Lemma zip_with'_map_r {A B C} (f : A -> B -> C) (h : A -> B) l :
  zip_with' f l (map h l) = map (fun x => f x (h x)) l.
Proof. induction l as [|x l IH]; simpl; congruence. Qed.

Lemma zip_with'_repeat_r {A B C} (f : A -> B -> C) l b n :
  n = length l -> zip_with' f l (repeat b n) = map (fun a => f a b) l.
Proof.
  intros ->. induction l as [|x l IH]; simpl; congruence.
Qed.

Lemma broadcastable_cases (n m : nat) :
  broadcastable (Z.of_nat n) (Z.of_nat m) = true <->
  n = m \/ n = 1%nat \/ m = 1%nat.
Proof.
  unfold broadcastable. rewrite !orb_true_iff, !Z.eqb_eq. lia.
Qed.

Lemma broadcast_defined {A B C} (f : A -> B -> C) la lb :
  broadcastable (Z.of_nat (length la)) (Z.of_nat (length lb)) = true ->
  exists l, broadcast f la lb = Some l /\
    Z.of_nat (length l)
    = broadcast_len (Z.of_nat (length la)) (Z.of_nat (length lb)).
Proof.
  rewrite broadcastable_cases. unfold broadcast, broadcast_len. intros H.
  destruct (Nat.eqb_spec (length la) (length lb)) as [E|E].
  - eexists. split; [reflexivity|].
    rewrite zip_with'_length by congruence.
    destruct (Z.eqb_spec (Z.of_nat (length la)) 1); lia.
  - destruct H as [H|[H|H]]; [contradiction| |].
    + destruct la as [|a [|a' la]]; try discriminate H.
      eexists. split; [reflexivity|]. now rewrite length_map.
    + destruct lb as [|b [|b' lb]]; try discriminate H.
      destruct (Z.eqb_spec (Z.of_nat (length la)) 1) as [E1|E1].
      * simpl in E. lia.
      * destruct la as [|a [|a' la]]; simpl in *; try lia;
          eexists; (split; [reflexivity|]); simpl; rewrite ?length_map; lia.
Qed.

Lemma broadcast_undefined {A B C} (f : A -> B -> C) la lb :
  broadcastable (Z.of_nat (length la)) (Z.of_nat (length lb)) = false ->
  broadcast f la lb = None.
Proof.
  intros H.
  assert (~ (length la = length lb \/ length la = 1%nat \/ length lb = 1%nat))
    as Hn.
  { rewrite <- broadcastable_cases. now rewrite H. }
  apply broadcast_mismatch; lia.
Qed.

Lemma multiply_defined ln a b :
  broadcastable (len a) (len b) = true ->
  exists x, multiply ln a b = Ok x /\ len x = broadcast_len (len a) (len b).
Proof.
  destruct a as [la|la], b as [lb|lb]; simpl; intros H;
    match goal with |- context [broadcast ?f la lb] =>
      destruct (broadcast_defined f la lb H) as (l & -> & Hl) end;
    eexists; (split; [reflexivity|exact Hl]).
Qed.

Lemma multiply_undefined ln a b :
  broadcastable (len a) (len b) = false ->
  multiply ln a b = Raise ln shape_error.
Proof.
  destruct a as [la|la], b as [lb|lb]; simpl; intros H;
    rewrite broadcast_undefined by exact H; reflexivity.
Qed.

(** ** Lines 34-45 on an int64 grid *)

Lemma bern_grid_int64 g d t p_theta real_data credib n_to_plot :
  g !! "Data" = Some d ->
  bern_grid g (Int64Arr t) p_theta real_data credib n_to_plot
  = (let ones := count_nonzero (eq_one d) in
     let N := len real_data in
     let L := Int64Arr (map (xor_likelihood ones N) t) in
     match multiply 44 L p_theta with
     | Ok lp =>
         Ok {| ones := ones; N_ := N; p_data_given_theta := L;
               p_data := np_sum lp;
               p_theta_given_data := true_divide lp (np_sum lp) |}
     | Raise _ e => Raise 44 e
     end).
Proof.
  intros Hd. unfold bern_grid, load_global. rewrite Hd.
  cbn [mbind outcome_bind].
  rewrite likelihood_line_int64.
  cbn [mbind outcome_bind bitwise_xor_int].
  rewrite (multiply_line 44 45).
  rewrite (List.map_map (fun x => Int64.sub 1 x)), zip_with'_map_r, List.map_map.
  cbv zeta. unfold xor_likelihood.
  destruct (multiply 44 _ p_theta) as [lp|k e] eqn:M.
  - reflexivity.
  - apply multiply_raises in M as [-> _]. reflexivity.
Qed.

Lemma multiply_int64_dtype ln l b x :
  multiply ln (Int64Arr l) b = Ok x -> is_float x = is_float b.
Proof.
  destruct b as [lb|lb]; simpl;
    match goal with |- context [broadcast ?f l lb] =>
      destruct (broadcast f l lb) end;
    intros H; inversion H; reflexivity.
Qed.

Lemma len_true_divide a s : len (true_divide a s) = len a.
Proof. destruct a; simpl; now rewrite length_map. Qed.

Lemma count_nonzero_bounds bs : 0 <= count_nonzero bs <= Z.of_nat (length bs).
Proof.
  unfold count_nonzero. pose proof (List.filter_length_le (fun b : bool => b) bs).
  lia.
Qed.

(** X1: lines 34-45 run to completion exactly when [Data] is bound, the grid is
    an int64 array, and the lengths of grid and prior are equal or one of
    them is 1. *)
Theorem bern_grid_completes_iff
    g theta p_theta real_data credib n_to_plot :
  (exists l, bern_grid g theta p_theta real_data credib n_to_plot = Ok l) <->
  is_Some (g !! "Data") /\ is_float theta = false /\
  broadcastable (len theta) (len p_theta) = true.
Proof.
  split.
  - intros [l E].
    destruct (bern_grid_Ok _ _ _ _ _ _ _ E) as (d & lp & Hd & Hf & M & _).
    split; [now exists d|]. split; [exact Hf|].
    destruct theta as [t|t]; [|discriminate Hf].
    rewrite (bern_grid_int64 g d) in E by exact Hd. cbv zeta in E.
    destruct (broadcastable (len (Int64Arr t)) (len p_theta)) eqn:B;
      [reflexivity|].
    rewrite multiply_undefined in E; [discriminate E|].
    simpl. rewrite length_map. exact B.
  - intros ([d Hd] & Hf & B).
    destruct theta as [t|t]; [|discriminate Hf].
    rewrite (bern_grid_int64 g d) by exact Hd. cbv zeta.
    destruct (multiply_defined 44
                (Int64Arr (map (xor_likelihood (count_nonzero (eq_one d))
                                  (len real_data)) t)) p_theta)
      as (lp & -> & _).
    + simpl. rewrite length_map. exact B.
    + eexists. reflexivity.
Qed.

(** X2: the exceptions of lines 34-45, each with the line that raises it and
    the inputs that lead to it: an unbound [Data] comes before the dtype of
    the grid, and the dtype before the shapes. *)
Theorem bern_grid_error_table
    g theta p_theta real_data credib n_to_plot ln e :
  bern_grid g theta p_theta real_data credib n_to_plot = Raise ln e <->
  (ln = 37%nat /\ e = NameError "Data" /\ g !! "Data" = None) \/
  (ln = 41%nat /\ e = xor_error /\
   is_Some (g !! "Data") /\ is_float theta = true) \/
  (ln = 44%nat /\ e = shape_error /\
   is_Some (g !! "Data") /\ is_float theta = false /\
   broadcastable (len theta) (len p_theta) = false).
Proof.
  split.
  - intros E.
    destruct (g !! "Data") as [d|] eqn:Hd.
    + destruct theta as [t|t].
      * right. right.
        destruct (broadcastable (len (Int64Arr t)) (len p_theta)) eqn:B.
        -- rewrite (bern_grid_int64 g d) in E by exact Hd. cbv zeta in E.
           destruct (multiply_defined 44
                       (Int64Arr (map (xor_likelihood
                                         (count_nonzero (eq_one d))
                                         (len real_data)) t)) p_theta)
             as (lp & M & _).
           { simpl. rewrite length_map. exact B. }
           rewrite M in E. discriminate E.
        -- apply bern_grid_Raise in E
             as [(_ & _ & H)|[(_ & _ & H)|(-> & -> & _)]];
             try discriminate; try congruence.
           repeat split; try reflexivity. now exists d.
      * right. left.
        rewrite (bern_grid_float_grid g d) in E by exact Hd.
        inversion E. repeat split; try reflexivity. now exists d.
    + left. rewrite bern_grid_Data_unbound in E by exact Hd.
      inversion E. auto.
  - intros [(-> & -> & Hd)|[(-> & -> & [d Hd] & Hf)
                            |(-> & -> & [d Hd] & Hf & B)]].
    + now apply bern_grid_Data_unbound.
    + destruct theta as [t|t]; [discriminate Hf|].
      now apply (bern_grid_float_grid g d).
    + destruct theta as [t|t]; [|discriminate Hf].
      rewrite (bern_grid_int64 g d) by exact Hd. cbv zeta.
      rewrite multiply_undefined; [reflexivity|].
      simpl. rewrite length_map. exact B.
Qed.

(** X3: what a completed run leaves: a likelihood of the length of the grid, a
    float64 posterior of the broadcast length, [N] the number of flips, and
    an evidence of the dtype of the prior. *)
Theorem bern_grid_shapes g theta p_theta real_data credib n_to_plot l :
  bern_grid g theta p_theta real_data credib n_to_plot = Ok l ->
  len (p_data_given_theta l) = len theta /\
  len (p_theta_given_data l) = broadcast_len (len theta) (len p_theta) /\
  is_float (p_theta_given_data l) = true /\
  N_ l = len real_data /\
  match p_data l with
  | NpFloat64 _ => is_float p_theta = true
  | NpInt64 _ => is_float p_theta = false
  end.
Proof.
  intros E.
  destruct (bern_grid_Ok _ _ _ _ _ _ _ E) as (d & lp & Hd & Hf & _).
  destruct theta as [t|t]; [|discriminate Hf].
  rewrite (bern_grid_int64 g d) in E by exact Hd. cbv zeta in E.
  set (L := Int64Arr _) in E.
  assert (len L = len (Int64Arr t)) as HL by (simpl; now rewrite length_map).
  destruct (broadcastable (len L) (len p_theta)) eqn:B.
  - destruct (multiply_defined 44 L p_theta B) as (x & M & Hx).
    rewrite M in E. injection E as <-. simpl p_data_given_theta.
    simpl p_theta_given_data. simpl N_. simpl p_data.
    rewrite len_true_divide, Hx, HL.
    apply multiply_int64_dtype in M.
    repeat split.
    + destruct x; reflexivity.
    + destruct x as [lx|lx], p_theta as [lb|lb]; simpl in *; congruence.
  - rewrite multiply_undefined in E by exact B. discriminate E.
Qed.

Lemma bern_grid_shapes_witness :
  len (Float64Arr [1; 0]%float)
  = broadcast_len (len (Int64Arr [0; 1])) (len (Float64Arr [0.5]%float)).
Proof.
  exact (proj1 (proj2 (bern_grid_shapes (with_Data flips4) (Int64Arr [0; 1])
                         (Float64Arr [0.5]%float) flips4 0.95%float None
                         _ eq_refl))).
Defined.

(** X4: every entry of the likelihood is an int64, and the count of 1s lies
    between 0 and the size of [Data]; the number of flips does not bound
    it. *)
Theorem bern_grid_int64_invariant
    g d theta p_theta real_data credib n_to_plot l :
  g !! "Data" = Some d ->
  bern_grid g theta p_theta real_data credib n_to_plot = Ok l ->
  is_float (p_data_given_theta l) = false /\
  Forall Int64.in_range (int64_values (p_data_given_theta l)) /\
  0 <= ones l <= size_of d.
Proof.
  intros Hd E.
  destruct (bern_grid_Ok _ _ _ _ _ _ _ E) as (d' & lp & _ & Hf & _).
  destruct theta as [t|t]; [|discriminate Hf].
  rewrite (bern_grid_int64 g d) in E by exact Hd. cbv zeta in E.
  destruct (multiply 44 _ p_theta) as [x|k e]; [|discriminate E].
  injection E as <-. simpl. split; [reflexivity|]. split.
  - apply List.Forall_forall. intros x' Hx.
    apply in_map_iff in Hx as (th & <- & _).
    apply wrap_in_range.
  - apply count_nonzero_bounds.
Qed.

Lemma bern_grid_int64_invariant_witness :
  Forall Int64.in_range [2; 0] /\ 0 <= 3 <= 4.
Proof.
  exact (proj2 (bern_grid_int64_invariant (with_Data flips4) (PyArr flips4)
                  (Int64Arr [0; 1]) (Float64Arr [0.5]%float) flips4
                  0.95%float None _ eq_refl eq_refl)).
Defined.

(** ** What the result depends on *)





(** ** The values of the likelihood line *)

Lemma likelihood_pointwise g d theta p_theta real_data credib n_to_plot l :
  g !! "Data" = Some d ->
  bern_grid g theta p_theta real_data credib n_to_plot = Ok l ->
  p_data_given_theta l
  = Int64Arr (map (xor_likelihood (count_nonzero (eq_one d)) (len real_data))
                (int64_values theta)).
Proof.
  intros Hd E.
  destruct (bern_grid_Ok _ _ _ _ _ _ _ E) as (d' & lp & _ & Hf & _).
  destruct theta as [t|t]; [|discriminate Hf].
  rewrite (bern_grid_int64 g d) in E by exact Hd. cbv zeta in E.
  destruct (multiply 44 _ p_theta) as [x|k e]; [|discriminate E].
  now injection E as <-.
Qed.

Lemma lxor_small a b :
  0 <= a < 2 ^ 63 -> 0 <= b < 2 ^ 63 -> 0 <= Z.lxor a b < 2 ^ 63.
Proof.
  intros Ha Hb.
  assert (0 <= Z.lxor a b) as H0 by (apply Z.lxor_nonneg; lia).
  split; [exact H0|].
  destruct (Z.eq_dec (Z.lxor a b) 0) as [->|Hne]; [lia|].
  apply Z.log2_lt_pow2; [lia|].
  pose proof (Z.log2_lxor a b ltac:(lia) ltac:(lia)) as Hl.
  assert (forall x, 0 <= x < 2 ^ 63 -> Z.log2 x < 63) as Hlog.
  { intros x Hx. destruct (Z.eq_dec x 0) as [->|]; [reflexivity|].
    apply Z.log2_lt_pow2; lia. }
  pose proof (Hlog a Ha). pose proof (Hlog b Hb). lia.
Qed.

Lemma xor_likelihood_no_data theta :
  Int64.in_range theta -> xor_likelihood 0 0 theta = theta.
Proof.
  intros H. unfold xor_likelihood, Int64.xor, Int64.mul.
  change (0 * Int64.sub 1 theta) with 0. change (Int64.wrap 0) with 0.
  change (0 - 0) with 0.
  rewrite !Z.lxor_0_r, !(wrap_small theta H). reflexivity.
Qed.

(** X6: with no 1 in [Data] and no flip in [real_data], the likelihood that
    line 41 computes is the grid itself. *)
Theorem no_data_likelihood_is_grid
    g d t p_theta real_data credib n_to_plot l :
  g !! "Data" = Some d -> count_nonzero (eq_one d) = 0 ->
  len real_data = 0 -> Forall Int64.in_range t ->
  bern_grid g (Int64Arr t) p_theta real_data credib n_to_plot = Ok l ->
  p_data_given_theta l = Int64Arr t.
Proof.
  intros Hd H1 HN Ht E.
  rewrite (likelihood_pointwise _ _ _ _ _ _ _ _ Hd E), H1, HN. simpl.
  f_equal. rewrite <- (map_id t) at 2. apply map_ext_in.
  intros x Hx. apply xor_likelihood_no_data.
  rewrite List.Forall_forall in Ht. now apply Ht.
Qed.

Lemma no_data_likelihood_is_grid_witness :
  Int64Arr [0; 1; 2] = Int64Arr [0; 1; 2].
Proof.
  refine (no_data_likelihood_is_grid (with_Data (Float64Arr []))
            (PyArr (Float64Arr [])) [0; 1; 2]
            (Float64Arr [0.25; 0.5; 0.25]%float) (Float64Arr [])
            0.95%float None
            {| ones := 0; N_ := 0;
               p_data_given_theta := Int64Arr [0; 1; 2];
               p_data := NpFloat64 1;
               p_theta_given_data := Float64Arr [0; 0.5; 0.5]%float |}
            eq_refl eq_refl eq_refl _ eq_refl).
  repeat constructor; vm_compute; discriminate.
Defined.

(** X7: at the grid points 0 and 1 the likelihood is [ones xor (N - ones)] and
    [1 xor (N - ones)], for [ones] 1s in [Data] and [N] flips. *)
Theorem likelihood_at_0_and_1
    g d theta p_theta real_data credib n_to_plot l i :
  g !! "Data" = Some d ->
  bern_grid g theta p_theta real_data credib n_to_plot = Ok l ->
  0 <= len real_data - ones l < 2 ^ 63 -> ones l < 2 ^ 63 ->
  (nth_error (int64_values theta) i = Some 0 ->
   nth_error (int64_values (p_data_given_theta l)) i
   = Some (Z.lxor (ones l) (len real_data - ones l))) /\
  (nth_error (int64_values theta) i = Some 1 ->
   nth_error (int64_values (p_data_given_theta l)) i
   = Some (Z.lxor 1 (len real_data - ones l))).
Proof.
  intros Hd E HN H1.
  rewrite (likelihood_pointwise _ _ _ _ _ _ _ _ Hd E).
  assert (ones l = count_nonzero (eq_one d)) as Ho.
  { destruct (bern_grid_Ok _ _ _ _ _ _ _ E) as (d' & lp & _ & Hf & _).
    destruct theta as [t|t]; [|discriminate Hf].
    rewrite (bern_grid_int64 g d) in E by exact Hd. cbv zeta in E.
    destruct (multiply 44 _ p_theta) as [x|k e]; [|discriminate E].
    now injection E as <-. }
  pose proof (count_nonzero_bounds (eq_one d)) as H0. rewrite <- Ho in H0.
  rewrite <- Ho. simpl int64_values.
  split; intros Hi; rewrite nth_error_map, Hi; simpl; f_equal;
    unfold xor_likelihood, Int64.xor, Int64.mul, Int64.sub.
  - change (1 - 0) with 1. change (Int64.wrap 1) with 1.
    rewrite Z.mul_1_r, Z.lxor_0_l.
    rewrite (wrap_small (ones l)), (wrap_small (ones l));
      try (unfold Int64.in_range, Int64.min_signed, Int64.max_signed; lia).
    apply wrap_small. pose proof (lxor_small (ones l) (len real_data - ones l)).
    unfold Int64.in_range, Int64.min_signed, Int64.max_signed. lia.
  - change (1 - 1) with 0. change (Int64.wrap 0) with 0.
    rewrite Z.mul_0_r. change (Int64.wrap 0) with 0.
    change (Z.lxor 1 0) with 1. change (Int64.wrap 1) with 1.
    apply wrap_small. pose proof (lxor_small 1 (len real_data - ones l)).
    unfold Int64.in_range, Int64.min_signed, Int64.max_signed. lia.
Qed.

Lemma likelihood_at_0_and_1_witness :
  nth_error [2; 0] 0 = Some (Z.lxor 3 (4 - 3)) /\
  nth_error [2; 0] 1 = Some (Z.lxor 1 (4 - 3)).
Proof.
  pose (l := {| ones := 3; N_ := 4;
                p_data_given_theta := Int64Arr [2; 0];
                p_data := NpFloat64 1;
                p_theta_given_data := Float64Arr [1; 0]%float |}).
  assert (0 <= len flips4 - ones l < 2 ^ 63) as H1 by (simpl; lia).
  assert (ones l < 2 ^ 63) as H2 by (simpl; lia).
  split.
  - exact (proj1 (likelihood_at_0_and_1 (with_Data flips4) (PyArr flips4)
                    (Int64Arr [0; 1]) (Float64Arr [0.5]%float) flips4
                    0.95%float None l 0 eq_refl eq_refl H1 H2) eq_refl).
  - exact (proj2 (likelihood_at_0_and_1 (with_Data flips4) (PyArr flips4)
                    (Int64Arr [0; 1]) (Float64Arr [0.5]%float) flips4
                    0.95%float None l 1 eq_refl eq_refl H1 H2) eq_refl).
Defined.

(** ** The prior *)

Lemma broadcast_singleton_r {A B C} (f : A -> B -> C) la b :
  broadcast f la [b] = Some (map (fun a => f a b) la).
Proof.
  unfold broadcast. destruct la as [|a [|a' la]]; reflexivity.
Qed.

Lemma multiply_singleton ln l (b : float) (k : Z) :
  multiply ln (Int64Arr l) (Float64Arr [b])
  = multiply ln (Int64Arr l) (Float64Arr (repeat b (length l))) /\
  multiply ln (Int64Arr l) (Int64Arr [k])
  = multiply ln (Int64Arr l) (Int64Arr (repeat k (length l))).
Proof.
  split; simpl; rewrite broadcast_singleton_r,
    broadcast_same_length, zip_with'_repeat_r;
    try reflexivity; now rewrite repeat_length.
Qed.

(** X8: a prior of one element is accepted for a grid of any length: it is
    broadcast, and the outcome is that of the constant prior of the length
    of the grid. *)
Theorem one_element_prior_is_constant_prior
    g t real_data credib n_to_plot :
  (forall p,
     bern_grid g (Int64Arr t) (Float64Arr [p]) real_data credib n_to_plot
     = bern_grid g (Int64Arr t) (Float64Arr (repeat p (length t)))
                 real_data credib n_to_plot) /\
  (forall p,
     bern_grid g (Int64Arr t) (Int64Arr [p]) real_data credib n_to_plot
     = bern_grid g (Int64Arr t) (Int64Arr (repeat p (length t)))
                 real_data credib n_to_plot).
Proof.
  destruct (g !! "Data") as [d|] eqn:Hd.
  - split; intros p; rewrite !(bern_grid_int64 g d) by exact Hd; cbv zeta;
      match goal with |- context [multiply 44 (Int64Arr ?L) _] =>
        first [ pose proof (proj1 (multiply_singleton 44 L p 0)) as H
              | pose proof (proj2 (multiply_singleton 44 L 0%float p)) as H ]
      end;
      rewrite length_map in H; now rewrite H.
  - split; intros p; now rewrite !bern_grid_Data_unbound by exact Hd.
Qed.

(** ** Line 49 *)

(** X9: in a namespace without [plt], and the file imports numpy only, no call
    of [bern_grid] gets past line 49: it raises at line 37, 41 or 44, or,
    where lines 34-45 complete, [NameError] for [plt] at line 49. *)
Theorem bern_grid_stops_at_plot
    g theta p_theta real_data credib n_to_plot :
  g !! "plt" = None ->
  raises (bern_grid_to_line_49 g theta p_theta real_data credib n_to_plot) /\
  (forall l,
     bern_grid g theta p_theta real_data credib n_to_plot = Ok l ->
     bern_grid_to_line_49 g theta p_theta real_data credib n_to_plot
     = Raise 49 (NameError "plt")) /\
  (forall ln e,
     bern_grid g theta p_theta real_data credib n_to_plot = Raise ln e ->
     bern_grid_to_line_49 g theta p_theta real_data credib n_to_plot
     = Raise ln e /\ (ln < 49)%nat).
Proof.
  intros Hp. unfold bern_grid_to_line_49, load_global. rewrite Hp.
  destruct (bern_grid g theta p_theta real_data credib n_to_plot)
    as [l|ln e] eqn:E; cbn [mbind outcome_bind].
  - split; [exact I|]. split; [reflexivity|discriminate].
  - split; [exact I|]. split; [discriminate|].
    intros ln' e' H. inversion H; subst. split; [reflexivity|].
    apply bern_grid_Raise in E as [(-> & _)|[(-> & _)|(-> & _)]]; lia.
Qed.

Lemma bern_grid_stops_at_plot_witness :
  bern_grid_to_line_49 (with_Data flips4) (Int64Arr [0; 1])
    (Float64Arr [0.5]%float) flips4 0.95%float None
  = Raise 49 (NameError "plt").
Proof.
  exact (proj1 (proj2 (bern_grid_stops_at_plot (with_Data flips4)
                         (Int64Arr [0; 1]) (Float64Arr [0.5]%float) flips4
                         0.95%float None eq_refl)) _ eq_refl).
Defined.

(** ** The thinning of the comb *)

Lemma len_nonneg a : 0 <= len a.
Proof. destruct a; simpl; lia. Qed.

(** The index array of line 54 is shorter than the comb. *)
Lemma thin_index_is_shorter n q idx :
  0 < n -> q <> 0 ->
  np_arange_step 1 n q = Some idx -> len idx < n.
Proof.
  intros Hn Hq. unfold np_arange_step.
  destruct (Z.eqb_spec q 0) as [|_]; [contradiction|].
  intros H. injection H as <-. simpl. rewrite length_map, length_seq.
  destruct (Z_lt_le_dec 0 q) as [Hpos|Hneg].
  - pose proof (Z.div_mod (1 - n) q ltac:(lia)) as E.
    pose proof (Z.mod_pos_bound (1 - n) q Hpos) as B.
    assert (1 - n <= (1 - n) / q) by nia. lia.
  - pose proof (Z.div_mod (1 - n) q ltac:(lia)) as E.
    pose proof (Z.mod_neg_bound (1 - n) q ltac:(lia)) as B.
    assert (0 <= (1 - n) / q) by nia. lia.
Qed.

Lemma thin_teeth_cases Theta nToPlot :
  (len Theta <= nToPlot -> thin_teeth Theta nToPlot = Unassigned) /\
  (nToPlot < len Theta -> nToPlot = 0 \/ len Theta < - nToPlot ->
   thin_teeth Theta nToPlot = Raised 54 ZeroDivisionError) /\
  (nToPlot < len Theta -> nToPlot <> 0 -> - nToPlot <= len Theta ->
   thin_teeth Theta nToPlot = Raised 57 (NumpyError concatenate_error)).
Proof.
  pose proof (len_nonneg Theta) as Hn. unfold thin_teeth. cbv zeta.
  split; [|split].
  - intros H. destruct (Z.gtb_spec (len Theta) nToPlot); [lia|reflexivity].
  - intros H Hz. destruct (Z.gtb_spec (len Theta) nToPlot); [|lia].
    unfold int_of_quotient.
    destruct (Z.eqb_spec nToPlot 0) as [|Hk]; [reflexivity|].
    assert (Z.quot (len Theta) nToPlot = 0) as ->.
    { apply Z.quot_small_iff; lia. }
    reflexivity.
  - intros H Hk Hge. destruct (Z.gtb_spec (len Theta) nToPlot); [|lia].
    unfold int_of_quotient.
    destruct (Z.eqb_spec nToPlot 0) as [|_]; [contradiction|].
    assert (Z.quot (len Theta) nToPlot <> 0) as Hq.
    { rewrite Z.quot_small_iff by exact Hk. lia. }
    assert (0 < len Theta) as Hpos.
    { destruct (Z.eq_dec (len Theta) 0) as [E|]; [|lia].
      rewrite E in Hq. now rewrite Z.quot_0_l in Hq. }
    destruct (np_arange_step 1 (len Theta) _) as [idx|] eqn:A.
    + apply thin_index_is_shorter in A; [|exact Hpos|exact Hq].
      destruct (Z.ltb_spec (len idx) (len Theta)); [reflexivity|lia].
    + unfold np_arange_step in A.
      destruct (Z.eqb_spec (Z.quot (len Theta) nToPlot) 0);
        [contradiction|discriminate].
Qed.

(** X10: the outcomes of lines 52-59, by the values of [len(Theta)] and
    [nToPlot]: nothing to thin, a division by zero on line 54, or the
    [ValueError] of [np.concatenate] on line 57. *)
Theorem thin_teeth_table Theta nToPlot :
  (len Theta <= nToPlot -> thin_teeth Theta nToPlot = Unassigned) /\
  (nToPlot < len Theta -> nToPlot = 0 \/ len Theta < - nToPlot ->
   thin_teeth Theta nToPlot = Raised 54 ZeroDivisionError) /\
  (nToPlot < len Theta -> nToPlot <> 0 -> - nToPlot <= len Theta ->
   thin_teeth Theta nToPlot = Raised 57 (NumpyError concatenate_error)).
Proof. exact (thin_teeth_cases Theta nToPlot). Qed.

Lemma thin_teeth_table_witness :
  thin_teeth (Int64Arr [0; 1; 2; 3; 4]) 7 = Unassigned /\
  thin_teeth (Int64Arr [0; 1; 2; 3; 4]) 0 = Raised 54 ZeroDivisionError /\
  thin_teeth (Int64Arr [0; 1; 2; 3; 4]) 2
  = Raised 57 (NumpyError concatenate_error).
Proof.
  split; [|split].
  - apply (proj1 (thin_teeth_table (Int64Arr [0; 1; 2; 3; 4]) 7)).
    simpl. lia.
  - apply (proj1 (proj2 (thin_teeth_table (Int64Arr [0; 1; 2; 3; 4]) 0)));
      simpl; lia.
  - apply (proj2 (proj2 (thin_teeth_table (Int64Arr [0; 1; 2; 3; 4]) 2)));
      simpl; lia.
Defined.

(** X11: lines 52-59 never bind [thinIdx]: either line 53 finds nothing to
    thin, or line 54 or line 57 raises.  The comparison of line 56 holds
    whenever it is reached, so that line 59 is never run. *)
Theorem thin_teeth_never_assigns Theta nToPlot :
  thin_teeth Theta nToPlot = Unassigned \/
  thin_teeth Theta nToPlot = Raised 54 ZeroDivisionError \/
  thin_teeth Theta nToPlot = Raised 57 (NumpyError concatenate_error).
Proof.
  destruct (thin_teeth_cases Theta nToPlot) as (H1 & H2 & H3).
  destruct (Z_le_gt_dec (len Theta) nToPlot) as [H|H].
  - left. apply H1, H.
  - destruct (Z.eq_dec nToPlot 0) as [E|E].
    + right. left. apply H2; lia.
    + destruct (Z_lt_le_dec (len Theta) (- nToPlot)).
      * right. left. apply H2; lia.
      * right. right. apply H3; lia.
Qed.

(** ** Importing the module *)

(** C10, as stated, fails: the import does not stop in the demonstration on
    an undefined name.  The file does not compile, whatever its body would
    do, and nothing of it runs.  Nor is the input of the demonstration a
    case of zero evidence for the code: on the grid [0] with one head,
    line 41 gives the likelihood 1. *)
Lemma import_counterexample :
  let r := import_BernGrid (Raise 133 (NameError "c")) in
  r = SyntaxError 65 /\
  ~ fails_on_undefined_name r /\
  bern_grid (with_Data (Int64Arr [1])) (Int64Arr [0]) (Float64Arr [1]%float)
            (Int64Arr [1]) 0.95%float None
  = Ok {| ones := 1; N_ := 1;
          p_data_given_theta := Int64Arr [1];
          p_data := NpFloat64 1;
          p_theta_given_data := Float64Arr [1]%float |}.
Proof.
  cbv zeta. split; [reflexivity|]. split; [|reflexivity].
  intros (ln & x & H & _).
  change (import_BernGrid (Raise 133 (NameError "c"))) with (SyntaxError 65)
    in H.
  discriminate H.
Qed.

(** C10, amended: importing the module always fails, at compile time.  The
    call of [plot] on lines 64-67 gives [cex.axis] for a keyword, which is
    no Python: the import raises [SyntaxError] at line 65 and no statement
    of the file is run, whatever the module body would do.  The grid of the
    demonstration, [np.arange(0, 1, 11)], is the one point 0.  There the
    binomial kernel of one observed head gives the evidence 0 for every
    prior, and line 41 as it is written gives the likelihood 1. *)
Theorem import_fails_at_compile_time :
  (forall body, import_BernGrid body = SyntaxError 65) /\
  np_arange 0 1 11 = Some (Int64Arr [0]) /\
  (forall prior, evidence [0%Q] [prior] 1 1 == 0)%Q /\
  (forall p_theta credib n_to_plot l,
     bern_grid (with_Data (Int64Arr [1])) (Int64Arr [0]) p_theta
               (Int64Arr [1]) credib n_to_plot = Ok l ->
     p_data_given_theta l = Int64Arr [1]).
Proof.
  split; [reflexivity|]. split; [reflexivity|]. split.
  - intros prior. unfold evidence, binomial_kernel. simpl. ring.
  - intros p_theta credib n_to_plot l H.
    exact (likelihood_pointwise (with_Data (Int64Arr [1]))
             (PyArr (Int64Arr [1])) (Int64Arr [0]) p_theta (Int64Arr [1])
             credib n_to_plot l eq_refl H).
Qed.

Lemma import_fails_at_compile_time_witness :
  Int64Arr [1] = Int64Arr [1].
Proof.
  exact (proj2 (proj2 (proj2 import_fails_at_compile_time))
           (Float64Arr [1]%float) 0.95%float None
           {| ones := 1; N_ := 1;
              p_data_given_theta := Int64Arr [1];
              p_data := NpFloat64 1;
              p_theta_given_data := Float64Arr [1]%float |}
           eq_refl).
Defined.

(** ** [np.sum] *)

(** Fuel of the length of the array is enough for [pairwise_sum]: more
    changes nothing. *)
Lemma pairwise_sum_fuel fuel :
  forall fuel' a,
    (length a <= fuel)%nat -> (length a <= fuel')%nat ->
    pairwise_sum fuel a = pairwise_sum fuel' a.
Proof.
  induction fuel as [|fuel IH]; intros fuel' a H H'.
  - destruct a; [|simpl in H; lia]. destruct fuel'; reflexivity.
  - destruct fuel' as [|fuel'].
    + destruct a; [reflexivity|simpl in H'; lia].
    + cbn [pairwise_sum].
      destruct (length a <? 8)%nat eqn:E8; [reflexivity|].
      destruct (length a <=? 128)%nat eqn:E128; [reflexivity|].
      apply Nat.ltb_ge in E8. apply Nat.leb_gt in E128.
      pose proof (Nat.div_mod_eq (length a) 2) as D.
      pose proof (Nat.mod_upper_bound (length a) 2 ltac:(lia)) as M2.
      pose proof (Nat.mod_upper_bound (length a / 2) 8 ltac:(lia)) as M8.
      f_equal; apply IH; rewrite ?length_firstn, ?length_skipn; lia.
Qed.

Example np_sum_short :
  np_sum (Float64Arr [0.5; 0.25; 0.25]%float) = NpFloat64 1.
Proof. reflexivity. Qed.

(** Nine elements: the first eight are totalled pairwise, the ninth is
    added last. *)
Example np_sum_blocks :
  np_sum (Float64Arr [1e16; 1; 1; 1; 1; 1; 1; 1; 1]%float)
  = NpFloat64 ((((1e16 + 1) + (1 + 1)) + ((1 + 1) + (1 + 1))) + 1)%float
  /\ np_sum (Float64Arr [1e16; 1; 1; 1; 1; 1; 1; 1; 1]%float)
     <> NpFloat64 (fold_left PrimFloat.add
                     [1e16; 1; 1; 1; 1; 1; 1; 1; 1]%float 0%float).
Proof.
  split; [reflexivity|].
  intros H. apply (f_equal (fun s => Prim2SF (scalar_to_float s))) in H.
  vm_compute in H. discriminate H.
Qed.
